(** * iothub: naming and TLS configuration helpers for Azure IoT Hub over MQTT

    A shallow embedding of package [iothub] (the file that declares Device,
    and [broker.go]) with the properties of its derived identifiers, of the
    certificate identity extractor [DeviceIDFromCert] and of the client
    constructor [NewClient].

    Conventions of the embedding.
    - A Go [string] is a [string] (a sequence of bytes), a [[]byte] is a
      [list byte], a Go [int] is a [Z].
    - A method with a pointer receiver [*T] is a computation in the state
      monad over [T]: it is given the pointed-to value and returns its
      result together with the value the pointer refers to afterwards.
    - A Go result pair [(v, err)] is a pair whose error component is an
      [option error], [None] standing for [nil].
    - The libraries the package calls (os, io/ioutil, encoding/pem,
      crypto/x509, crypto/tls, paho.mqtt.golang) are the fields of the
      class [Platform]; the package is verified against every platform. *)

From Stdlib Require Import Strings.String Strings.Ascii Strings.Byte List Bool ZArith DecimalString.
From Stdlib Require Import Lia.
From ExtLib Require Import Structures.Monad Structures.MonadState.
From ExtLib Require Import Data.Monads.StateMonad.
Import ListNotations.
Import MonadNotation.
Local Open Scope monad_scope.
Local Open Scope string_scope.

Set Implicit Arguments.

(** ** Go values the package handles *)

Definition bytes := list byte.

#[local] Set Warnings "-register-all".

(** The built-in interface [error].  The package creates errors with
    [fmt.Errorf] only: [errorString] is what it returns for a format without
    the verb [%w], [wrapError] for a format with one [%w], [wrapErrors] for
    several.  An error made elsewhere (by a library or by an option function
    of the caller) is a [foreignError]; the package observes two things of
    such a value, the text of its [Error] method and whether [os.IsNotExist]
    holds of it, and the model keeps exactly those. *)
Inductive error : Type :=
| foreignError (msg : string) (notExist : bool)
| errorString (s : string)
| wrapError (msg : string) (err : error)
| wrapErrors (msg : string) (errs : list error).

#[local] Set Warnings "register-all".

Definition Error (e : error) : string :=
  match e with
  | foreignError msg _ => msg
  | errorString s => s
  | wrapError msg _ => msg
  | wrapErrors msg _ => msg
  end.

(** [os.IsNotExist] looks at the error itself (and inside the os package's own
    wrappers, which the model folds into [foreignError]); it does not unwrap
    errors built by [fmt.Errorf]. *)
Definition os_IsNotExist (err : error) : bool :=
  match err with
  | foreignError _ notExist => notExist
  | _ => false
  end.

(** ** Package fmt, restricted to the verbs the package uses *)

Module fmt.

(** An operand of a formatting call. *)
Inductive operand : Type :=
| Str (s : string)
| Int (n : Z)
| Err (e : error).

(** Decimal rendering of an [int], as [%d] and [%v] print it. *)
Definition itoa (n : Z) : string := NilZero.string_of_int (Z.to_int n).

Definition typeName (a : operand) : string :=
  match a with
  | Str _ => "string"
  | Int _ => "int"
  | Err _ => "error"
  end.

Definition plain (a : operand) : string :=
  match a with
  | Str s => s
  | Int n => itoa n
  | Err e => Error e
  end.

(** [%!verb(type=value)]: wrong operand type or unknown verb.  For an error
    operand Go prints the dynamic type of the value here, which the model
    does not have; no format of the package reaches that case. *)
Definition badVerb (verb : ascii) (a : operand) : string :=
  "%!" ++ String verb ("(" ++ typeName a ++ "=" ++ plain a ++ ")").

Definition missing (verb : ascii) : string :=
  "%!" ++ String verb "(MISSING)".

Fixpoint extraList (a : list operand) : string :=
  match a with
  | [] => ""
  | [x] => typeName x ++ "=" ++ plain x
  | x :: rest => typeName x ++ "=" ++ plain x ++ ", " ++ extraList rest
  end.

(** Operands left over when the format is exhausted. *)
Definition extra (a : list operand) : string :=
  match a with
  | [] => ""
  | _ => "%!(EXTRA " ++ extraList a ++ ")"
  end.

(** One operand under one verb.  [wrapErrs] is set by [Errorf] and makes
    [%w] with an error operand behave as [%v]. *)
Definition printArg (wrapErrs : bool) (verb : ascii) (a : operand) : string :=
  match verb, a with
  | "v"%char, _ => plain a
  | "s"%char, Str s => s
  | "s"%char, Err e => Error e
  | "d"%char, Int n => itoa n
  | "w"%char, Err e => if wrapErrs then Error e else badVerb verb a
  | _, _ => badVerb verb a
  end.

Fixpoint doPrintf (wrapErrs : bool) (format : string) (a : list operand) : string :=
  match format with
  | EmptyString => extra a
  | String "%" EmptyString => "%!(NOVERB)" ++ extra a
  | String "%" (String "%" rest) => String "%" (doPrintf wrapErrs rest a)
  | String "%" (String verb rest) =>
      match a with
      | [] => missing verb ++ doPrintf wrapErrs rest []
      | x :: a' => printArg wrapErrs verb x ++ doPrintf wrapErrs rest a'
      end
  | String c rest => String c (doPrintf wrapErrs rest a)
  end.

(** The error operands that the verbs [%w] of [format] meet, in order. *)
Fixpoint wrappedErrs (format : string) (a : list operand) : list error :=
  match format with
  | EmptyString => []
  | String "%" EmptyString => []
  | String "%" (String "%" rest) => wrappedErrs rest a
  | String "%" (String verb rest) =>
      match a with
      | [] => []
      | x :: a' =>
          match verb, x with
          | "w"%char, Err e => e :: wrappedErrs rest a'
          | _, _ => wrappedErrs rest a'
          end
      end
  | String _ rest => wrappedErrs rest a
  end.

Definition Sprintf (format : string) (a : list operand) : string :=
  doPrintf false format a.

Definition Errorf (format : string) (a : list operand) : error :=
  let s := doPrintf true format a in
  match wrappedErrs format a with
  | [] => errorString s
  | [err] => wrapError s err
  | errs => wrapErrors s errs
  end.

End fmt.

(** ** broker.go: the broker descriptor *)

(** MQTTBroker represents an MQTT server. *)
Record MQTTBroker : Type := mkMQTTBroker {
  Host : string;
  Port : Z
}.

(** URL returns the URL of the MQTT server. *)
Definition URL : state MQTTBroker string :=
  b <- get ;;
  ret (fmt.Sprintf "tls://%s:%d" [fmt.Str (Host b); fmt.Int (Port b)]).

(** String returns a string representation of the MQTTBroker. *)
Definition String_ : state MQTTBroker string := URL.

(** ** The Device and its derived identifiers *)

Definition azureDevicesEndpoint : string := "azure-devices.net".

(** Device represents an IoT Hub device. *)
Record Device : Type := mkDevice {
  HubName : string;
  DeviceID : string;
  CertPath : string;
  PrivKeyPath : string
}.

Definition Broker : state Device MQTTBroker :=
  d <- get ;;
  ret {| Host := fmt.Sprintf "%s.%s" [fmt.Str (HubName d); fmt.Str azureDevicesEndpoint];
         Port := 8883 |}.

(** ClientID returns the device ID, since that is what IoT Hub requires. *)
Definition ClientID : state Device string :=
  d <- get ;;
  ret (DeviceID d).

(** Username returns a username formatted as required by IoT Hub. *)
Definition Username : state Device string :=
  d <- get ;;
  ret (fmt.Sprintf "%s.%s/%s"
         [fmt.Str (HubName d); fmt.Str azureDevicesEndpoint; fmt.Str (DeviceID d)]).

(** CommandTopic returns the MQTT topic to which the device can subscribe to
    get commands. *)
Definition CommandTopic : state Device string :=
  d <- get ;;
  ret (fmt.Sprintf "/devices/%v/messages/devicebound/#" [fmt.Str (DeviceID d)]).

(** TelemetryTopic returns the MQTT topic to which the device should publish
    telemetry events. *)
Definition TelemetryTopic : state Device string :=
  d <- get ;;
  ret (fmt.Sprintf "/devices/%v/messages/events" [fmt.Str (DeviceID d)]).

(** ** The libraries the package calls *)

(** The outcome of a library call that returns a value and an error: the
    libraries return a usable value exactly when the error is [nil]. *)
Inductive result (A : Type) : Type :=
| Ok (v : A)
| Fail (err : error).
Arguments Ok {A} v.
Arguments Fail {A} err.

(** encoding/pem: [pem.Block]. *)
Record pem_Block : Type := mkBlock {
  Type_ : string;
  Headers : list (string * string);
  Bytes : bytes
}.

(** crypto/x509/pkix and crypto/x509: the fields of [x509.Certificate] that
    the package reads. *)
Record pkix_Name : Type := mkName {
  CommonName : string
}.

Record x509_Certificate : Type := mkCertificate {
  Raw : bytes;
  Subject : pkix_Name
}.

(** crypto/tls: [tls.ClientAuthType], in the order of its declaration. *)
Inductive tls_ClientAuthType : Type :=
| NoClientCert
| RequestClientCert
| RequireAnyClientCert
| VerifyClientCertIfGiven
| RequireAndVerifyClientCert.

Definition tls_VersionTLS10 : Z := 0x0301.
Definition tls_VersionTLS11 : Z := 0x0302.
Definition tls_VersionTLS12 : Z := 0x0303.
Definition tls_VersionTLS13 : Z := 0x0304.

(** [tls.Config], with the four fields the package sets; every other field
    keeps its zero value.  [RootCAs] is a pointer, [None] standing for [nil]. *)
Record tls_Config (CertPool Certificate : Type) : Type := mkConfig {
  RootCAs : option CertPool;
  ClientAuth : tls_ClientAuthType;
  Certificates : list Certificate;
  MinVersion : Z
}.

(** What the package needs of its environment: the file system behind
    [ioutil.ReadFile] and [tls.LoadX509KeyPair], the stream behind an
    [io.Reader], and the library functions it calls.  A procedure that
    updates the object it is called on ([AppendCertsFromPEM], the setters of
    [mqtt.ClientOptions]) takes the object and returns the updated one. *)
Class Platform : Type := {
  ioutil_ReadFile : string -> result bytes;
  io_Reader : Type;
  ioutil_ReadAll : io_Reader -> result bytes;
  pem_Decode : bytes -> option pem_Block * bytes;
  x509_ParseCertificate : bytes -> result x509_Certificate;
  x509_CertPool : Type;
  x509_NewCertPool : x509_CertPool;
  AppendCertsFromPEM : bytes -> x509_CertPool -> bool * x509_CertPool;
  tls_Certificate : Type;
  tls_LoadX509KeyPair : string -> string -> result tls_Certificate;
  mqtt_ClientOptions : Type;
  mqtt_Client : Type;
  mqtt_NewClientOptions : mqtt_ClientOptions;
  AddBroker : string -> mqtt_ClientOptions -> mqtt_ClientOptions;
  SetClientID : string -> mqtt_ClientOptions -> mqtt_ClientOptions;
  SetUsername : string -> mqtt_ClientOptions -> mqtt_ClientOptions;
  SetTLSConfig : tls_Config x509_CertPool tls_Certificate -> mqtt_ClientOptions -> mqtt_ClientOptions;
  mqtt_NewClient : mqtt_ClientOptions -> mqtt_Client
}.

(** ** DeviceIDFromCert and NewClient *)

Section Package.

Context {P : Platform}.

(** DeviceIDFromCert gets the Common Name from an X.509 cert, which for the
    purposes of this package is considered to be the device ID. *)
Definition DeviceIDFromCert (certPath : string) : string * option error :=
  match ioutil_ReadFile certPath with
  | Fail err =>
      if os_IsNotExist err
      then ("", Some (fmt.Errorf "iothub: cert file does not exist: %v" [fmt.Str certPath]))
      else ("", Some (fmt.Errorf "iothub: failed to read cert: %v" [fmt.Err err]))
  | Ok certBytes =>
      match fst (pem_Decode certBytes) with
      | None => ("", Some (fmt.Errorf "iothub: failed to decode PEM certificate" []))
      | Some block =>
          if negb (Type_ block =? "CERTIFICATE")
          then ("", Some (fmt.Errorf "iothub: failed to decode PEM certificate" []))
          else
            match x509_ParseCertificate (Bytes block) with
            | Fail err => ("", Some err)
            | Ok cert => (CommonName (Subject cert), None)
            end
      end
  end.

(** An option function, [func(d *Device, opts *mqtt.ClientOptions) error]: it may
    read and update both the device and the options it points to. *)
Definition OptionFunc : Type := state (Device * mqtt_ClientOptions) (option error).

(** The loop of NewClient over its option functions; it leaves at the first
    error. *)
Fixpoint applyOptions (options : list OptionFunc)
  : state (Device * mqtt_ClientOptions) (option error) :=
  match options with
  | [] => ret None
  | option :: rest =>
      err <- option ;;
      match err with
      | Some err => ret (Some err)
      | None => applyOptions rest
      end
  end.

(** NewClient creates a Client that may be used to connect to the device's
    Hub's MQTT broker using TLS.  The option functions are applied to the
    ClientOptions in the order given before the Client is created. *)
Definition NewClient (caCerts : io_Reader) (options : list OptionFunc)
  : state Device (option mqtt_Client * option error) :=
  match ioutil_ReadAll caCerts with
  | Fail err =>
      ret (None, Some (fmt.Errorf "iothub: failed to read CA certs: %v" [fmt.Err err]))
  | Ok pemCerts =>
      let certpool := x509_NewCertPool in
      let (ok, certpool) := AppendCertsFromPEM pemCerts certpool in
      if negb ok
      then ret (None, Some (fmt.Errorf "iothub: no certs were parsed from given CA certs" []))
      else
        d <- get ;;
        match tls_LoadX509KeyPair (CertPath d) (PrivKeyPath d) with
        | Fail err =>
            ret (None, Some (fmt.Errorf "iothub: failed to load x509 key pair: %w" [fmt.Err err]))
        | Ok cert =>
            let tlsConf := {| RootCAs := Some certpool;
                              ClientAuth := RequireAndVerifyClientCert;
                              Certificates := [cert];
                              MinVersion := tls_VersionTLS12 |} in
            broker <- Broker ;;
            let opts := mqtt_NewClientOptions in
            let opts := AddBroker (evalState URL broker) opts in
            clientID <- ClientID ;;
            let opts := SetClientID clientID opts in
            username <- Username ;;
            let opts := SetUsername username opts in
            let opts := SetTLSConfig tlsConf opts in
            d <- get ;;
            let '(err, (d, opts)) := runState (applyOptions options) (d, opts) in
            put d ;;
            match err with
            | Some err => ret (None, Some err)
            | None => ret (Some (mqtt_NewClient opts), None)
            end
        end
  end.

(** The options as NewClient has set them when it turns to the option
    functions (lines [opts := mqtt.NewClientOptions()] to
    [opts.SetTLSConfig(tlsConf)]), for a given TLS configuration. *)
Definition defaults (d : Device) (tlsConf : tls_Config x509_CertPool tls_Certificate)
  : mqtt_ClientOptions :=
  SetTLSConfig tlsConf
    (SetUsername (evalState Username d)
      (SetClientID (evalState ClientID d)
        (AddBroker (evalState URL (evalState Broker d))
          mqtt_NewClientOptions))).

(** [succeed options st st']: called one after the other in the order of
    the list, starting in [st], every function of [options] returns [nil],
    and the last one leaves the device and the options as in [st']. *)
Inductive succeed : list OptionFunc -> Device * mqtt_ClientOptions ->
                    Device * mqtt_ClientOptions -> Prop :=
| succeed_nil st : succeed [] st st
| succeed_cons option rest st st' st'' :
    runState option st = (None, st') ->
    succeed rest st' st'' ->
    succeed (option :: rest) st st''.

(** The outcomes of DeviceIDFromCert, each with the condition on the file
    under which it occurs. *)
Definition returnsCommonName (certPath : string) : Prop :=
  exists certBytes block cert,
    ioutil_ReadFile certPath = Ok certBytes /\
    fst (pem_Decode certBytes) = Some block /\
    Type_ block = "CERTIFICATE" /\
    x509_ParseCertificate (Bytes block) = Ok cert /\
    DeviceIDFromCert certPath = (CommonName (Subject cert), None).

Definition failsNotFound (certPath : string) : Prop :=
  exists err,
    ioutil_ReadFile certPath = Fail err /\
    os_IsNotExist err = true /\
    DeviceIDFromCert certPath =
      ("", Some (errorString ("iothub: cert file does not exist: " ++ certPath))).

Definition failsRead (certPath : string) : Prop :=
  exists err,
    ioutil_ReadFile certPath = Fail err /\
    os_IsNotExist err = false /\
    DeviceIDFromCert certPath =
      ("", Some (errorString ("iothub: failed to read cert: " ++ Error err))).

Definition failsDecode (certPath : string) : Prop :=
  exists certBytes,
    ioutil_ReadFile certPath = Ok certBytes /\
    (forall block, fst (pem_Decode certBytes) = Some block -> Type_ block <> "CERTIFICATE") /\
    DeviceIDFromCert certPath =
      ("", Some (errorString "iothub: failed to decode PEM certificate")).

Definition failsParse (certPath : string) : Prop :=
  exists certBytes block err,
    ioutil_ReadFile certPath = Ok certBytes /\
    fst (pem_Decode certBytes) = Some block /\
    Type_ block = "CERTIFICATE" /\
    x509_ParseCertificate (Bytes block) = Fail err /\
    DeviceIDFromCert certPath = ("", Some err).

(** The outcomes of DeviceIDFromCert when the read error of a file that could
    not be read for a reason other than its absence is left out. *)
Definition outcomesWithoutReadError (certPath : string) : Prop :=
  returnsCommonName certPath \/ failsNotFound certPath \/
  failsDecode certPath \/ failsParse certPath.

(** The four ways through NewClient, each with the condition under which it
    is taken and the result and Device it ends with. *)
Inductive NewClient_way (d : Device) (caCerts : io_Reader) (options : list OptionFunc)
  : (option mqtt_Client * option error) * Device -> Prop :=
| way_unread err :
    ioutil_ReadAll caCerts = Fail err ->
    NewClient_way d caCerts options
      ((None, Some (errorString ("iothub: failed to read CA certs: " ++ Error err))), d)
| way_no_roots pemCerts :
    ioutil_ReadAll caCerts = Ok pemCerts ->
    fst (AppendCertsFromPEM pemCerts x509_NewCertPool) = false ->
    NewClient_way d caCerts options
      ((None, Some (errorString "iothub: no certs were parsed from given CA certs")), d)
| way_bad_key_pair pemCerts err :
    ioutil_ReadAll caCerts = Ok pemCerts ->
    fst (AppendCertsFromPEM pemCerts x509_NewCertPool) = true ->
    tls_LoadX509KeyPair (CertPath d) (PrivKeyPath d) = Fail err ->
    NewClient_way d caCerts options
      ((None, Some (wrapError ("iothub: failed to load x509 key pair: " ++ Error err) err)), d)
| way_options pemCerts certpool cert res st :
    ioutil_ReadAll caCerts = Ok pemCerts ->
    AppendCertsFromPEM pemCerts x509_NewCertPool = (true, certpool) ->
    tls_LoadX509KeyPair (CertPath d) (PrivKeyPath d) = Ok cert ->
    runState (applyOptions options)
             (d, defaults d {| RootCAs := Some certpool;
                               ClientAuth := RequireAndVerifyClientCert;
                               Certificates := [cert];
                               MinVersion := tls_VersionTLS12 |}) = (res, st) ->
    NewClient_way d caCerts options
      (match res with
       | Some err => (None, Some err)
       | None => (Some (mqtt_NewClient (snd st)), None)
       end, fst st).

End Package.

(** Calling a method twice in a row on the same receiver. *)
Definition twice {S A : Type} (m : state S A) : state S (A * A) :=
  a <- m ;;
  b <- m ;;
  ret (a, b).

(** The device of the package's tests. *)
Definition device : Device :=
  {| HubName := "myhub"; DeviceID := "foo"; CertPath := ""; PrivKeyPath := "key.pem" |}.

(** Whether the character [c] occurs in [s], and the last character of [s]:
    what a broker looks at in a topic or a host name. *)
Fixpoint hasChar (c : ascii) (s : string) : bool :=
  match s with
  | EmptyString => false
  | String x rest => Ascii.eqb x c || hasChar c rest
  end.

Fixpoint lastChar (s : string) : option ascii :=
  match s with
  | EmptyString => None
  | String x EmptyString => Some x
  | String _ rest => lastChar rest
  end.

(** ** A platform to run the package on

    A small file system, in-memory readers and stand-ins for the libraries:
    a PEM decoder that knows the armour lines and takes the text between
    them as the payload, certificates whose encoding is the text [CN=name],
    private keys whose encoding is [KEY-OF name], and client options that
    record what was set. *)

Module Sim.

Definition nl : string := String "010" "".

Definition armour (kind type : string) : string :=
  "-----" ++ kind ++ " " ++ type ++ "-----" ++ nl.

Definition pemBlock (type payload : string) : string :=
  armour "BEGIN" type ++ payload ++ nl ++ armour "END" type.

Definition drop (n : nat) (s : string) : string :=
  substring n (String.length s - n) s.

Definition decode (data : bytes) : option pem_Block * bytes :=
  let s := string_of_list_byte data in
  if prefix "-----BEGIN " s then
    let s1 := drop 11 s in
    match index 0 ("-----" ++ nl) s1 with
    | Some n =>
        let type := substring 0 n s1 in
        let s2 := drop (n + 6) s1 in
        match index 0 (nl ++ armour "END" type) s2 with
        | Some m =>
            (Some {| Type_ := type; Headers := [];
                     Bytes := list_byte_of_string (substring 0 m s2) |},
             list_byte_of_string (drop (m + 1 + String.length (armour "END" type)) s2))
        | None => (None, data)
        end
    | None => (None, data)
    end
  else (None, data).

Definition parse (der : bytes) : result x509_Certificate :=
  let s := string_of_list_byte der in
  if prefix "CN=" s
  then Ok {| Raw := der; Subject := {| CommonName := drop 3 s |} |}
  else Fail (foreignError "x509: malformed certificate" false).

Definition CertPool : Type := list x509_Certificate.

Fixpoint appendCerts (fuel : nat) (pemCerts : bytes) (pool : CertPool) : bool * CertPool :=
  match fuel, pemCerts with
  | O, _ => (false, pool)
  | _, [] => (false, pool)
  | S fuel, _ =>
      match decode pemCerts with
      | (None, _) => (false, pool)
      | (Some block, rest) =>
          if negb (Type_ block =? "CERTIFICATE") || negb (Nat.eqb (List.length (Headers block)) 0)
          then appendCerts fuel rest pool
          else
            match parse (Bytes block) with
            | Fail _ => appendCerts fuel rest pool
            | Ok cert => (true, snd (appendCerts fuel rest (app pool [cert])))
            end
      end
  end.

Definition certDev1 : string := pemBlock "CERTIFICATE" "CN=dev-1".
Definition certRoot : string := pemBlock "CERTIFICATE" "CN=DigiCert Global Root G2".
Definition keyDev1 : string := pemBlock "PRIVATE KEY" "KEY-OF dev-1".
Definition keyDev2 : string := pemBlock "PRIVATE KEY" "KEY-OF dev-2".

Definition files : list (string * result bytes) :=
  [ ("dev-1.pem", Ok (list_byte_of_string certDev1));
    ("dev-1-chain.pem", Ok (list_byte_of_string (certDev1 ++ certRoot)));
    ("key-then-cert.pem", Ok (list_byte_of_string (keyDev1 ++ certDev1)));
    ("bad-der.pem", Ok (list_byte_of_string (pemBlock "CERTIFICATE" "not a certificate")));
    ("notes.txt", Ok (list_byte_of_string "no armour in this file"));
    ("dev-1.key", Ok (list_byte_of_string keyDev1));
    ("dev-2.key", Ok (list_byte_of_string keyDev2));
    ("locked.pem", Fail (foreignError "open locked.pem: permission denied" false)) ].

Fixpoint lookup (path : string) (fs : list (string * result bytes)) : option (result bytes) :=
  match fs with
  | [] => None
  | (name, entry) :: rest => if name =? path then Some entry else lookup path rest
  end.

Definition readFile (path : string) : result bytes :=
  match lookup path files with
  | Some entry => entry
  | None => Fail (foreignError ("open " ++ path ++ ": no such file or directory") true)
  end.

Record KeyPair : Type := mkKeyPair {
  Leaf : x509_Certificate;
  PrivateKey : bytes
}.

Definition noPEM : error :=
  foreignError "tls: failed to find any PEM data in certificate input" false.

Definition loadKeyPair (certFile keyFile : string) : result KeyPair :=
  match readFile certFile with
  | Fail err => Fail err
  | Ok certPEM =>
      match readFile keyFile with
      | Fail err => Fail err
      | Ok keyPEM =>
          match fst (decode certPEM), fst (decode keyPEM) with
          | Some c, Some k =>
              if (Type_ c =? "CERTIFICATE") && (Type_ k =? "PRIVATE KEY")
              then
                match parse (Bytes c) with
                | Fail err => Fail err
                | Ok cert =>
                    if string_of_list_byte (Bytes k) =? "KEY-OF " ++ CommonName (Subject cert)
                    then Ok {| Leaf := cert; PrivateKey := Bytes k |}
                    else Fail (foreignError "tls: private key does not match public key" false)
                end
              else Fail noPEM
          | _, _ => Fail noPEM
          end
      end
  end.

Record Options : Type := mkOptions {
  Servers : list string;
  OptClientID : string;
  OptUsername : string;
  TLSConfig : option (tls_Config CertPool KeyPair);
  ConnectTimeout : Z
}.

Inductive Client : Type :=
| client (o : Options).

Definition newOptions : Options :=
  {| Servers := []; OptClientID := ""; OptUsername := ""; TLSConfig := None;
     ConnectTimeout := 30 |}.

Definition platform : Platform :=
  {| ioutil_ReadFile := readFile;
     io_Reader := result bytes;
     ioutil_ReadAll := fun r => r;
     pem_Decode := decode;
     x509_ParseCertificate := parse;
     x509_CertPool := CertPool;
     x509_NewCertPool := [];
     AppendCertsFromPEM := fun pemCerts pool => appendCerts (S (List.length pemCerts)) pemCerts pool;
     tls_Certificate := KeyPair;
     tls_LoadX509KeyPair := loadKeyPair;
     mqtt_ClientOptions := Options;
     mqtt_Client := Client;
     mqtt_NewClientOptions := newOptions;
     AddBroker := fun server o =>
       {| Servers := app (Servers o) [server]; OptClientID := OptClientID o;
          OptUsername := OptUsername o; TLSConfig := TLSConfig o;
          ConnectTimeout := ConnectTimeout o |};
     SetClientID := fun id o =>
       {| Servers := Servers o; OptClientID := id; OptUsername := OptUsername o;
          TLSConfig := TLSConfig o; ConnectTimeout := ConnectTimeout o |};
     SetUsername := fun u o =>
       {| Servers := Servers o; OptClientID := OptClientID o; OptUsername := u;
          TLSConfig := TLSConfig o; ConnectTimeout := ConnectTimeout o |};
     SetTLSConfig := fun conf o =>
       {| Servers := Servers o; OptClientID := OptClientID o;
          OptUsername := OptUsername o; TLSConfig := Some conf;
          ConnectTimeout := ConnectTimeout o |};
     mqtt_NewClient := client |}.

(** Option functions for the runs below. *)
Definition OptionFunc : Type := state (Device * Options) (option error).

(** The option of the package documentation: set the connect timeout. *)
Definition connectTimeout (t : Z) : OptionFunc :=
  mkState (fun st =>
    let o := snd st in
    (None, (fst st,
            {| Servers := Servers o; OptClientID := OptClientID o;
               OptUsername := OptUsername o; TLSConfig := TLSConfig o;
               ConnectTimeout := t |}))).

(** An option that refuses a timeout above a bound and changes nothing. *)
Definition maxTimeout (bound : Z) : OptionFunc :=
  mkState (fun st =>
    if (bound <? ConnectTimeout (snd st))%Z
    then (Some (errorString "timeout too long"), st)
    else (None, st)).

(** An option that overrides the user name. *)
Definition username (u : string) : OptionFunc :=
  mkState (fun st => (None, (fst st, SetUsername (Platform := platform) u (snd st)))).

Definition dev1 : Device :=
  {| HubName := "my-hub"; DeviceID := "dev-1";
     CertPath := "dev-1.pem"; PrivKeyPath := "dev-1.key" |}.

Definition dev1WrongKey : Device :=
  {| HubName := "my-hub"; DeviceID := "dev-1";
     CertPath := "dev-1.pem"; PrivKeyPath := "dev-2.key" |}.

Definition roots : result bytes := Ok (list_byte_of_string certRoot).
Definition emptyReader : result bytes := Ok [].
Definition noRoots : result bytes := Ok (list_byte_of_string keyDev1).

(** A reader that fails before the end of its stream. *)
Definition brokenReader : result bytes := Fail (foreignError "unexpected EOF" false).


(** The device [dev1] under another hub. *)
Definition dev1Elsewhere : Device :=
  {| HubName := "other-hub"; DeviceID := "dev-1";
     CertPath := "dev-1.pem"; PrivKeyPath := "dev-1.key" |}.

(** What this platform parses from [roots] and loads for [dev1]. *)
Definition rootCert : x509_Certificate :=
  {| Raw := list_byte_of_string "CN=DigiCert Global Root G2";
     Subject := {| CommonName := "DigiCert Global Root G2" |} |}.

Definition keyPair1 : KeyPair :=
  {| Leaf := {| Raw := list_byte_of_string "CN=dev-1";
                Subject := {| CommonName := "dev-1" |} |};
     PrivateKey := list_byte_of_string "KEY-OF dev-1" |}.

Definition tlsConfig1 : tls_Config CertPool KeyPair :=
  {| RootCAs := Some [rootCert];
     ClientAuth := RequireAndVerifyClientCert;
     Certificates := [keyPair1];
     MinVersion := 771 |}.

End Sim.

(** * Properties *)

(** ** The identifiers derived from a Device *)

Example TestUsername : evalState Username device = "myhub.azure-devices.net/foo".
Proof. reflexivity. Qed.

Example TestCommandTopic :
  evalState CommandTopic device = "/devices/foo/messages/devicebound/#".
Proof. reflexivity. Qed.

Example TestTelemetryTopic : evalState TelemetryTopic device = "/devices/foo/messages/events".
Proof. reflexivity. Qed.

Example TestClientID : evalState ClientID device = DeviceID device.
Proof. reflexivity. Qed.

Example itoa_samples :
  fmt.itoa 8883 = "8883" /\ fmt.itoa 0 = "0" /\ fmt.itoa (-12) = "-12".
Proof. repeat split. Qed.

Example Sprintf_markers :
  fmt.Sprintf "%d%%|%s|%v" [fmt.Int (-5); fmt.Int 3; fmt.Str "a"] = "-5%|%!s(int=3)|a" /\
  fmt.Sprintf "hi%d" [] = "hi%!d(MISSING)" /\
  fmt.Sprintf "hi" [fmt.Str "guys"] = "hi%!(EXTRA string=guys)".
Proof. repeat split. Qed.

Lemma append_empty_r (s : string) : s ++ "" = s.
Proof. induction s as [|c s IH]; simpl; [reflexivity | now rewrite IH]. Qed.

(** What the three formats of the Device methods print for string operands. *)
Lemma Sprintf_host (h : string) :
  fmt.Sprintf "%s.%s" [fmt.Str h; fmt.Str azureDevicesEndpoint]
  = h ++ ".azure-devices.net".
Proof. cbn. reflexivity. Qed.

Lemma Sprintf_username (h i : string) :
  fmt.Sprintf "%s.%s/%s" [fmt.Str h; fmt.Str azureDevicesEndpoint; fmt.Str i]
  = h ++ ".azure-devices.net/" ++ i.
Proof. cbn. now rewrite append_empty_r. Qed.

Lemma Sprintf_url (host : string) (port : Z) :
  fmt.Sprintf "tls://%s:%d" [fmt.Str host; fmt.Int port]
  = "tls://" ++ host ++ ":" ++ fmt.itoa port.
Proof. cbn. now rewrite append_empty_r. Qed.

Lemma append_assoc (a b c : string) : (a ++ b) ++ c = a ++ (b ++ c).
Proof. induction a as [|x a IH]; simpl; [reflexivity | now rewrite IH]. Qed.

(** C1. For every Device with hub name [h] and device identifier [i],
    whatever its certificate and key paths, Username returns exactly [h],
    then [.azure-devices.net/], then [i]: nothing is escaped and no API
    version is appended.  The call leaves the Device as it was. *)
Theorem Username_format (h i c k : string) :
  runState Username (mkDevice h i c k)
  = (h ++ ".azure-devices.net/" ++ i, mkDevice h i c k).
Proof.
  unfold Username. cbn -[fmt.Sprintf].
  now rewrite Sprintf_username.
Qed.

(** C2. For every Device with hub name [h], Broker returns the descriptor
    with host [h.azure-devices.net] and port 8883, whatever the other fields
    of the Device are, and the URL of that descriptor is
    [tls://h.azure-devices.net:8883]. *)
Theorem Broker_URL_format (h i c k : string) :
  runState Broker (mkDevice h i c k)
  = ({| Host := h ++ ".azure-devices.net"; Port := 8883 |}, mkDevice h i c k)
  /\ evalState URL (evalState Broker (mkDevice h i c k))
     = "tls://" ++ h ++ ".azure-devices.net:8883".
Proof.
  split.
  - unfold Broker. cbn -[fmt.Sprintf]. now rewrite Sprintf_host.
  - unfold Broker, URL, evalState. cbn -[fmt.Sprintf].
    rewrite Sprintf_host, Sprintf_url.
    change (fmt.itoa 8883) with "8883".
    rewrite append_assoc. reflexivity.
Qed.

(** C5. For every Device with device identifier [i], CommandTopic returns
    [/devices/i/messages/devicebound/#] and TelemetryTopic returns
    [/devices/i/messages/events]. *)
Theorem topics_format (h i c k : string) :
  runState CommandTopic (mkDevice h i c k)
  = ("/devices/" ++ i ++ "/messages/devicebound/#", mkDevice h i c k)
  /\ runState TelemetryTopic (mkDevice h i c k)
     = ("/devices/" ++ i ++ "/messages/events", mkDevice h i c k).
Proof.
  split; cbn; reflexivity.
Qed.

(** C8. For every Device, ClientID returns the device identifier field
    unchanged; two Devices with the same identifier get the same client
    identifier whatever their hub names and certificate and key paths. *)
Theorem ClientID_is_DeviceID (h i c k : string) :
  runState ClientID (mkDevice h i c k) = (i, mkDevice h i c k)
  /\ forall h' c' k' : string,
       evalState ClientID (mkDevice h' i c' k') = evalState ClientID (mkDevice h i c k).
Proof.
  split; [reflexivity | intros; reflexivity].
Qed.

(** A method that only reads its receiver gives the same result when called
    again and leaves the receiver untouched. *)
Lemma twice_reader {S A : Type} (f : S -> A) (s : S) :
  runState (twice (x <- get ;; ret (f x))) s = ((f s, f s), s).
Proof. reflexivity. Qed.

(** C9. Calling Username, CommandTopic, TelemetryTopic or ClientID twice in
    a row on the same Device yields the same string both times, the one a
    single call yields, and leaves the Device unchanged. *)
Theorem derivation_idempotent (d : Device) :
  runState (twice Username) d = ((evalState Username d, evalState Username d), d)
  /\ runState (twice CommandTopic) d
     = ((evalState CommandTopic d, evalState CommandTopic d), d)
  /\ runState (twice TelemetryTopic) d
     = ((evalState TelemetryTopic d, evalState TelemetryTopic d), d)
  /\ runState (twice ClientID) d = ((evalState ClientID d, evalState ClientID d), d).
Proof.
  repeat split; apply (twice_reader _ d).
Qed.

(** ** DeviceIDFromCert *)

Section Properties.

Context {P : Platform}.

Lemma Errorf_not_exist (certPath : string) :
  fmt.Errorf "iothub: cert file does not exist: %v" [fmt.Str certPath]
  = errorString ("iothub: cert file does not exist: " ++ certPath).
Proof. unfold fmt.Errorf. cbn. now rewrite append_empty_r. Qed.

Lemma Errorf_read_cert (err : error) :
  fmt.Errorf "iothub: failed to read cert: %v" [fmt.Err err]
  = errorString ("iothub: failed to read cert: " ++ Error err).
Proof. unfold fmt.Errorf. cbn. now rewrite append_empty_r. Qed.

Lemma Errorf_decode :
  fmt.Errorf "iothub: failed to decode PEM certificate" []
  = errorString "iothub: failed to decode PEM certificate".
Proof. reflexivity. Qed.

Lemma Errorf_no_certs :
  fmt.Errorf "iothub: no certs were parsed from given CA certs" []
  = errorString "iothub: no certs were parsed from given CA certs".
Proof. reflexivity. Qed.

Lemma Errorf_key_pair (err : error) :
  fmt.Errorf "iothub: failed to load x509 key pair: %w" [fmt.Err err]
  = wrapError ("iothub: failed to load x509 key pair: " ++ Error err) err.
Proof. unfold fmt.Errorf. cbn. now rewrite append_empty_r. Qed.

Lemma not_certificate (block : pem_Block) :
  Type_ block <> "CERTIFICATE" -> (Type_ block =? "CERTIFICATE") = false.
Proof. intros H. now apply String.eqb_neq. Qed.

(** The five ways through DeviceIDFromCert. *)
Lemma DeviceIDFromCert_absent (certPath : string) (err : error) :
  ioutil_ReadFile certPath = Fail err ->
  os_IsNotExist err = true ->
  DeviceIDFromCert certPath
  = ("", Some (errorString ("iothub: cert file does not exist: " ++ certPath))).
Proof.
  intros Hread Hne. unfold DeviceIDFromCert.
  now rewrite Hread, Hne, Errorf_not_exist.
Qed.

Lemma DeviceIDFromCert_unreadable (certPath : string) (err : error) :
  ioutil_ReadFile certPath = Fail err ->
  os_IsNotExist err = false ->
  DeviceIDFromCert certPath
  = ("", Some (errorString ("iothub: failed to read cert: " ++ Error err))).
Proof.
  intros Hread Hne. unfold DeviceIDFromCert.
  now rewrite Hread, Hne, Errorf_read_cert.
Qed.

Lemma DeviceIDFromCert_undecodable (certPath : string) (certBytes : bytes) :
  ioutil_ReadFile certPath = Ok certBytes ->
  (forall block, fst (pem_Decode certBytes) = Some block -> Type_ block <> "CERTIFICATE") ->
  DeviceIDFromCert certPath
  = ("", Some (errorString "iothub: failed to decode PEM certificate")).
Proof.
  intros Hread Hblock. unfold DeviceIDFromCert. rewrite Hread.
  destruct (fst (pem_Decode certBytes)) as [block|]; [|reflexivity].
  now rewrite (not_certificate block (Hblock block eq_refl)).
Qed.

Lemma DeviceIDFromCert_unparsable (certPath : string) (certBytes : bytes)
      (block : pem_Block) (err : error) :
  ioutil_ReadFile certPath = Ok certBytes ->
  fst (pem_Decode certBytes) = Some block ->
  Type_ block = "CERTIFICATE" ->
  x509_ParseCertificate (Bytes block) = Fail err ->
  DeviceIDFromCert certPath = ("", Some err).
Proof.
  intros Hread Hblock Htype Hparse. unfold DeviceIDFromCert.
  now rewrite Hread, Hblock, Htype, Hparse.
Qed.

Lemma DeviceIDFromCert_parsed (certPath : string) (certBytes : bytes)
      (block : pem_Block) (cert : x509_Certificate) :
  ioutil_ReadFile certPath = Ok certBytes ->
  fst (pem_Decode certBytes) = Some block ->
  Type_ block = "CERTIFICATE" ->
  x509_ParseCertificate (Bytes block) = Ok cert ->
  DeviceIDFromCert certPath = (CommonName (Subject cert), None).
Proof.
  intros Hread Hblock Htype Hparse. unfold DeviceIDFromCert.
  now rewrite Hread, Hblock, Htype, Hparse.
Qed.

(** Every path takes one of the five ways. *)
Lemma DeviceIDFromCert_cases (certPath : string) :
  returnsCommonName certPath \/ failsNotFound certPath \/ failsRead certPath \/
  failsDecode certPath \/ failsParse certPath.
Proof.
  destruct (ioutil_ReadFile certPath) as [certBytes|err] eqn:Hread.
  - destruct (fst (pem_Decode certBytes)) as [block|] eqn:Hblock.
    + destruct (String.eqb_spec (Type_ block) "CERTIFICATE") as [Htype|Htype].
      * destruct (x509_ParseCertificate (Bytes block)) as [cert|err] eqn:Hparse.
        -- left. exists certBytes, block, cert.
           eauto 6 using DeviceIDFromCert_parsed.
        -- do 4 right. exists certBytes, block, err.
           eauto 6 using DeviceIDFromCert_unparsable.
      * do 3 right. left. exists certBytes.
        assert (Hno : forall b, fst (pem_Decode certBytes) = Some b -> Type_ b <> "CERTIFICATE")
          by (intros b Hb; rewrite Hblock in Hb; now inversion Hb; subst).
        eauto using DeviceIDFromCert_undecodable.
    + do 3 right. left. exists certBytes.
      assert (Hno : forall b, fst (pem_Decode certBytes) = Some b -> Type_ b <> "CERTIFICATE")
        by (intros b Hb; rewrite Hblock in Hb; discriminate).
      eauto using DeviceIDFromCert_undecodable.
  - destruct (os_IsNotExist err) eqn:Hne.
    + right. left. exists err. eauto using DeviceIDFromCert_absent.
    + do 2 right. left. exists err. eauto using DeviceIDFromCert_unreadable.
Qed.

(** C3, amended.  DeviceIDFromCert returns the subject common name of the
    certificate when the file is read, its first PEM block has type
    CERTIFICATE and the payload of the block parses as X.509.  It fails with
    the not-found error when the file does not exist, with the read error
    ([iothub: failed to read cert: ...]) when reading the file fails for any
    other reason, with the PEM-decode error when there is no PEM block or the
    first one is not of type CERTIFICATE, and with the error of the X.509
    parser when the payload is not a valid certificate.  These five are the
    only outcomes. *)
Theorem DeviceIDFromCert_outcomes (certPath : string) :
  (forall certBytes block cert,
     ioutil_ReadFile certPath = Ok certBytes ->
     fst (pem_Decode certBytes) = Some block ->
     Type_ block = "CERTIFICATE" ->
     x509_ParseCertificate (Bytes block) = Ok cert ->
     DeviceIDFromCert certPath = (CommonName (Subject cert), None))
  /\ (forall err,
        ioutil_ReadFile certPath = Fail err ->
        os_IsNotExist err = true ->
        DeviceIDFromCert certPath
        = ("", Some (errorString ("iothub: cert file does not exist: " ++ certPath))))
  /\ (forall err,
        ioutil_ReadFile certPath = Fail err ->
        os_IsNotExist err = false ->
        DeviceIDFromCert certPath
        = ("", Some (errorString ("iothub: failed to read cert: " ++ Error err))))
  /\ (forall certBytes,
        ioutil_ReadFile certPath = Ok certBytes ->
        (forall block, fst (pem_Decode certBytes) = Some block ->
                       Type_ block <> "CERTIFICATE") ->
        DeviceIDFromCert certPath
        = ("", Some (errorString "iothub: failed to decode PEM certificate")))
  /\ (forall certBytes block err,
        ioutil_ReadFile certPath = Ok certBytes ->
        fst (pem_Decode certBytes) = Some block ->
        Type_ block = "CERTIFICATE" ->
        x509_ParseCertificate (Bytes block) = Fail err ->
        DeviceIDFromCert certPath = ("", Some err))
  /\ (returnsCommonName certPath \/ failsNotFound certPath \/ failsRead certPath \/
      failsDecode certPath \/ failsParse certPath).
Proof.
  repeat split.
  - intros. eapply DeviceIDFromCert_parsed; eassumption.
  - intros. eapply DeviceIDFromCert_absent; eassumption.
  - intros. eapply DeviceIDFromCert_unreadable; eassumption.
  - intros. eapply DeviceIDFromCert_undecodable; eassumption.
  - intros. eapply DeviceIDFromCert_unparsable; eassumption.
  - apply DeviceIDFromCert_cases.
Qed.

(** C10. The result of DeviceIDFromCert is determined by the first PEM block
    of the file.  For a readable file in which pem.Decode finds no block, or
    finds a first block of a type other than CERTIFICATE, it fails with the
    PEM-decode error, whatever follows that block (the rest that pem.Decode
    returns is not looked at, so a valid certificate block there changes
    nothing).  And two readable files with the same first block give the
    same result, whatever bytes follow the block in each. *)
Theorem DeviceIDFromCert_first_block_only :
  (forall certPath certBytes,
     ioutil_ReadFile certPath = Ok certBytes ->
     (forall block, fst (pem_Decode certBytes) = Some block ->
                    Type_ block <> "CERTIFICATE") ->
     DeviceIDFromCert certPath
     = ("", Some (errorString "iothub: failed to decode PEM certificate")))
  /\ (forall path1 path2 bytes1 bytes2,
        ioutil_ReadFile path1 = Ok bytes1 ->
        ioutil_ReadFile path2 = Ok bytes2 ->
        fst (pem_Decode bytes1) = fst (pem_Decode bytes2) ->
        DeviceIDFromCert path1 = DeviceIDFromCert path2).
Proof.
  split.
  - intros. eapply DeviceIDFromCert_undecodable; eassumption.
  - intros path1 path2 bytes1 bytes2 H1 H2 Hsame.
    unfold DeviceIDFromCert. now rewrite H1, H2, Hsame.
Qed.

(** ** NewClient *)

(** The loop over the option functions. *)
Lemma applyOptions_cons (option : OptionFunc) (rest : list OptionFunc)
      (st : Device * mqtt_ClientOptions) :
  runState (applyOptions (option :: rest)) st
  = match runState option st with
    | (Some err, st') => (Some err, st')
    | (None, st') => runState (applyOptions rest) st'
    end.
Proof.
  cbn. destruct (runState option st) as [[err|] st']; reflexivity.
Qed.

Lemma applyOptions_app (pre rest : list OptionFunc) (st st' : Device * mqtt_ClientOptions) :
  succeed pre st st' ->
  runState (applyOptions (pre ++ rest)%list) st = runState (applyOptions rest) st'.
Proof.
  induction 1 as [st|option pre st st1 st2 Hrun _ IH].
  - reflexivity.
  - rewrite <- app_comm_cons, applyOptions_cons, Hrun. exact IH.
Qed.

Lemma applyOptions_succeed (options : list OptionFunc) (st st' : Device * mqtt_ClientOptions) :
  succeed options st st' ->
  runState (applyOptions options) st = (None, st').
Proof.
  intros H. rewrite <- (app_nil_r options).
  now rewrite (applyOptions_app [] H).
Qed.

Lemma applyOptions_fail (pre post : list OptionFunc) (option : OptionFunc)
      (st st1 st2 : Device * mqtt_ClientOptions) (err : error) :
  succeed pre st st1 ->
  runState option st1 = (Some err, st2) ->
  runState (applyOptions (pre ++ option :: post)%list) st = (Some err, st2).
Proof.
  intros Hpre Hrun.
  now rewrite (applyOptions_app (option :: post) Hpre), applyOptions_cons, Hrun.
Qed.

(** Either every option function succeeds in turn, or there is a first one
    that fails. *)
Lemma applyOptions_cases (options : list OptionFunc) (st : Device * mqtt_ClientOptions) :
  (exists st', succeed options st st')
  \/ (exists pre option post st1 st2 err,
        options = (pre ++ option :: post)%list /\
        succeed pre st st1 /\
        runState option st1 = (Some err, st2)).
Proof.
  revert st. induction options as [|option rest IH]; intros st.
  - left. exists st. constructor.
  - destruct (runState option st) as [[err|] st1] eqn:Hrun.
    + right. exists [], option, rest, st, st1, err.
      repeat split; [constructor | exact Hrun].
    + destruct (IH st1) as [[st' Hok]|(pre & o & post & sa & sb & err & Heq & Hpre & Hfail)].
      * left. exists st'. econstructor; eassumption.
      * right. exists (option :: pre), o, post, sa, sb, err.
        repeat split; [now rewrite Heq | econstructor; eassumption | exact Hfail].
Qed.

(** The first two exits of NewClient. *)
Lemma NewClient_no_roots (d : Device) (caCerts : io_Reader) (options : list OptionFunc)
      (pemCerts : bytes) :
  ioutil_ReadAll caCerts = Ok pemCerts ->
  fst (AppendCertsFromPEM pemCerts x509_NewCertPool) = false ->
  runState (NewClient caCerts options) d
  = ((None, Some (errorString "iothub: no certs were parsed from given CA certs")), d).
Proof.
  intros Hread Hnone. unfold NewClient. rewrite Hread.
  destruct (AppendCertsFromPEM pemCerts x509_NewCertPool) as [ok certpool].
  simpl in Hnone. subst ok. reflexivity.
Qed.

Lemma NewClient_bad_key_pair (d : Device) (caCerts : io_Reader) (options : list OptionFunc)
      (pemCerts : bytes) (err : error) :
  ioutil_ReadAll caCerts = Ok pemCerts ->
  fst (AppendCertsFromPEM pemCerts x509_NewCertPool) = true ->
  tls_LoadX509KeyPair (CertPath d) (PrivKeyPath d) = Fail err ->
  runState (NewClient caCerts options) d
  = ((None, Some (wrapError ("iothub: failed to load x509 key pair: " ++ Error err) err)), d).
Proof.
  intros Hread Hsome Hload. unfold NewClient. rewrite Hread.
  destruct (AppendCertsFromPEM pemCerts x509_NewCertPool) as [ok certpool].
  simpl in Hsome. subst ok. cbn -[fmt.Errorf].
  now rewrite Hload, Errorf_key_pair.
Qed.

(** Past those exits, NewClient runs the option functions on the device and
    the default options, and builds the client from what they leave. *)
Lemma NewClient_run (d : Device) (caCerts : io_Reader) (options : list OptionFunc)
      (pemCerts : bytes) (certpool : x509_CertPool) (cert : tls_Certificate) :
  ioutil_ReadAll caCerts = Ok pemCerts ->
  AppendCertsFromPEM pemCerts x509_NewCertPool = (true, certpool) ->
  tls_LoadX509KeyPair (CertPath d) (PrivKeyPath d) = Ok cert ->
  runState (NewClient caCerts options) d
  = (let '(err, (d', opts)) :=
       runState (applyOptions options)
                (d, defaults d {| RootCAs := Some certpool;
                                  ClientAuth := RequireAndVerifyClientCert;
                                  Certificates := [cert];
                                  MinVersion := tls_VersionTLS12 |}) in
     (match err with
      | Some err => (None, Some err)
      | None => (Some (mqtt_NewClient opts), None)
      end, d')).
Proof.
  intros Hread Hpool Hload. unfold NewClient. rewrite Hread, Hpool.
  cbn -[fmt.Sprintf applyOptions]. rewrite Hload.
  cbn -[fmt.Sprintf applyOptions]. unfold defaults.
  cbn -[fmt.Sprintf applyOptions].
  destruct (runState (applyOptions options) _) as [[err|] [d' opts]]; reflexivity.
Qed.

(** C4. NewClient fails with the no-certs error when no trusted root
    certificate parses from the bytes of the supplied stream; so it does for
    an empty stream, crypto/x509 finding no certificate in zero bytes.  When
    roots did parse, it fails with the key-pair error, wrapping the error of
    tls.LoadX509KeyPair, when the pair at the Device's certificate and key
    paths does not load.  In each case the client handle is nil and the
    Device is left unchanged; and whatever the stream holds, NewClient
    returns an error and a nil handle when the pair does not load. *)
Theorem NewClient_config_errors (d : Device) (caCerts : io_Reader)
        (options : list OptionFunc) :
  (forall pemCerts,
     ioutil_ReadAll caCerts = Ok pemCerts ->
     fst (AppendCertsFromPEM pemCerts x509_NewCertPool) = false ->
     runState (NewClient caCerts options) d
     = ((None, Some (errorString "iothub: no certs were parsed from given CA certs")), d))
  /\ (ioutil_ReadAll caCerts = Ok [] ->
      fst (AppendCertsFromPEM [] x509_NewCertPool) = false ->
      runState (NewClient caCerts options) d
      = ((None, Some (errorString "iothub: no certs were parsed from given CA certs")), d))
  /\ (forall pemCerts err,
        ioutil_ReadAll caCerts = Ok pemCerts ->
        fst (AppendCertsFromPEM pemCerts x509_NewCertPool) = true ->
        tls_LoadX509KeyPair (CertPath d) (PrivKeyPath d) = Fail err ->
        runState (NewClient caCerts options) d
        = ((None,
            Some (wrapError ("iothub: failed to load x509 key pair: " ++ Error err) err)),
           d))
  /\ (forall err,
        tls_LoadX509KeyPair (CertPath d) (PrivKeyPath d) = Fail err ->
        exists e, runState (NewClient caCerts options) d = ((None, Some e), d)).
Proof.
  split; [|split; [|split]].
  - intros. eapply NewClient_no_roots; eassumption.
  - intros. eapply NewClient_no_roots; eassumption.
  - intros. eapply NewClient_bad_key_pair; eassumption.
  - intros err Hload.
    destruct (ioutil_ReadAll caCerts) as [pemCerts|rerr] eqn:Hread.
    + destruct (fst (AppendCertsFromPEM pemCerts x509_NewCertPool)) eqn:Hpool.
      * eexists. eapply NewClient_bad_key_pair; eassumption.
      * eexists. eapply NewClient_no_roots; eassumption.
    + eexists. unfold NewClient. rewrite Hread. reflexivity.
Qed.

(** C6. When the root pool is built and the key pair loads, the TLS
    configuration NewClient builds has the pool parsed from the supplied
    stream as its trusted roots, client authentication
    RequireAndVerifyClientCert, the loaded key pair as its only certificate
    and TLS 1.2 (0x0303) as minimum version.  It is the configuration set in
    the options that the option functions receive and, when there are no
    option functions, in the options the client is made from. *)
Theorem NewClient_tls_config (d : Device) (caCerts : io_Reader) (options : list OptionFunc)
        (pemCerts : bytes) (certpool : x509_CertPool) (cert : tls_Certificate) :
  ioutil_ReadAll caCerts = Ok pemCerts ->
  AppendCertsFromPEM pemCerts x509_NewCertPool = (true, certpool) ->
  tls_LoadX509KeyPair (CertPath d) (PrivKeyPath d) = Ok cert ->
  let tlsConf := {| RootCAs := Some certpool;
                    ClientAuth := RequireAndVerifyClientCert;
                    Certificates := [cert];
                    MinVersion := tls_VersionTLS12 |} in
  tls_VersionTLS12 = 0x0303%Z
  /\ runState (NewClient caCerts options) d
     = (let '(err, (d', opts)) := runState (applyOptions options) (d, defaults d tlsConf) in
        (match err with
         | Some err => (None, Some err)
         | None => (Some (mqtt_NewClient opts), None)
         end, d'))
  /\ runState (NewClient caCerts []) d
     = ((Some (mqtt_NewClient (defaults d tlsConf)), None), d).
Proof.
  intros Hread Hpool Hload tlsConf. split; [reflexivity|]. split.
  - apply (NewClient_run d caCerts options Hread Hpool Hload).
  - apply (NewClient_run d caCerts [] Hread Hpool Hload).
Qed.

(** C7. When the root pool is built and the key pair loads, NewClient calls
    the option functions one after the other in the order given, the first
    one on the Device and the default options.  If all return nil, the
    client is made from the options the last one leaves.  If one returns an
    error, NewClient returns that error and a nil client, whatever option
    functions follow it in the list: they are not called.  One of the two
    happens. *)
Theorem NewClient_options_in_order (d : Device) (caCerts : io_Reader)
        (pemCerts : bytes) (certpool : x509_CertPool) (cert : tls_Certificate) :
  ioutil_ReadAll caCerts = Ok pemCerts ->
  AppendCertsFromPEM pemCerts x509_NewCertPool = (true, certpool) ->
  tls_LoadX509KeyPair (CertPath d) (PrivKeyPath d) = Ok cert ->
  let start := (d, defaults d {| RootCAs := Some certpool;
                                 ClientAuth := RequireAndVerifyClientCert;
                                 Certificates := [cert];
                                 MinVersion := tls_VersionTLS12 |}) in
  (forall options d' opts',
     succeed options start (d', opts') ->
     runState (NewClient caCerts options) d = ((Some (mqtt_NewClient opts'), None), d'))
  /\ (forall pre option post st d' opts' err,
        succeed pre start st ->
        runState option st = (Some err, (d', opts')) ->
        runState (NewClient caCerts (pre ++ option :: post)%list) d = ((None, Some err), d'))
  /\ (forall options,
        (exists st', succeed options start st')
        \/ (exists pre option post st st' err,
              options = (pre ++ option :: post)%list /\
              succeed pre start st /\
              runState option st = (Some err, st'))).
Proof.
  intros Hread Hpool Hload start. repeat split.
  - intros options d' opts' Hok.
    rewrite (NewClient_run d caCerts options Hread Hpool Hload).
    fold start. now rewrite (applyOptions_succeed Hok).
  - intros pre option post st d' opts' err Hpre Hfail.
    rewrite (NewClient_run d caCerts _ Hread Hpool Hload).
    fold start.
    assert (Hrun : runState (applyOptions (pre ++ option :: post)%list) start
                   = (Some err, (d', opts')))
      by (eapply applyOptions_fail; eassumption).
    now rewrite Hrun.
  - intros options. apply applyOptions_cases.
Qed.

End Properties.

(** ** Runs on the platform [Sim] *)

Example Sim_decode_rest :
  string_of_list_byte
    (snd (Sim.decode (list_byte_of_string (Sim.keyDev1 ++ Sim.certDev1))))
  = Sim.certDev1.
Proof. vm_compute. reflexivity. Qed.

(** Runs of DeviceIDFromCert through [DeviceIDFromCert_outcomes]: a
    certificate for dev-1, a path with no file, a file that cannot be opened,
    a file without PEM armour, and a certificate block whose payload does not
    parse. *)
Lemma DeviceIDFromCert_outcomes_witness :
  DeviceIDFromCert (P := Sim.platform) "dev-1.pem" = ("dev-1", None)
  /\ DeviceIDFromCert (P := Sim.platform) "missing.pem"
     = ("", Some (errorString "iothub: cert file does not exist: missing.pem"))
  /\ DeviceIDFromCert (P := Sim.platform) "locked.pem"
     = ("", Some (errorString
                    "iothub: failed to read cert: open locked.pem: permission denied"))
  /\ DeviceIDFromCert (P := Sim.platform) "notes.txt"
     = ("", Some (errorString "iothub: failed to decode PEM certificate"))
  /\ DeviceIDFromCert (P := Sim.platform) "bad-der.pem"
     = ("", Some (foreignError "x509: malformed certificate" false)).
Proof.
  split; [|split; [|split; [|split]]].
  - destruct (@DeviceIDFromCert_outcomes Sim.platform "dev-1.pem") as (H & _).
    refine (H (list_byte_of_string Sim.certDev1)
              {| Type_ := "CERTIFICATE"; Headers := [];
                 Bytes := list_byte_of_string "CN=dev-1" |}
              {| Raw := list_byte_of_string "CN=dev-1";
                 Subject := {| CommonName := "dev-1" |} |} _ _ _ _);
      vm_compute; reflexivity.
  - destruct (@DeviceIDFromCert_outcomes Sim.platform "missing.pem") as (_ & H & _).
    refine (H (foreignError "open missing.pem: no such file or directory" true) _ _);
      vm_compute; reflexivity.
  - destruct (@DeviceIDFromCert_outcomes Sim.platform "locked.pem") as (_ & _ & H & _).
    refine (H (foreignError "open locked.pem: permission denied" false) _ _);
      vm_compute; reflexivity.
  - destruct (@DeviceIDFromCert_outcomes Sim.platform "notes.txt") as (_ & _ & _ & H & _).
    refine (H (list_byte_of_string "no armour in this file") _ _).
    + vm_compute; reflexivity.
    + intros block Hblock. vm_compute in Hblock. discriminate Hblock.
  - destruct (@DeviceIDFromCert_outcomes Sim.platform "bad-der.pem")
      as (_ & _ & _ & _ & H & _).
    refine (H (list_byte_of_string (Sim.pemBlock "CERTIFICATE" "not a certificate"))
              {| Type_ := "CERTIFICATE"; Headers := [];
                 Bytes := list_byte_of_string "not a certificate" |}
              (foreignError "x509: malformed certificate" false) _ _ _ _);
      vm_compute; reflexivity.
Defined.

(** C3 as stated fails.  The file locked.pem exists and cannot be opened:
    ioutil.ReadFile fails with an error of which os.IsNotExist is false, and
    DeviceIDFromCert returns the read error, which is none of the outcomes
    the claim lists. *)
Lemma DeviceIDFromCert_read_error_not_listed :
  DeviceIDFromCert (P := Sim.platform) "locked.pem"
  = ("", Some (errorString "iothub: failed to read cert: open locked.pem: permission denied"))
  /\ ~ outcomesWithoutReadError (P := Sim.platform) "locked.pem".
Proof.
  split; [vm_compute; reflexivity|].
  intros [H|[H|[H|H]]].
  - destruct H as (certBytes & block & cert & Hread & _). vm_compute in Hread. discriminate.
  - destruct H as (err & Hread & Hne & _). vm_compute in Hread.
    injection Hread as <-. discriminate.
  - destruct H as (certBytes & Hread & _). vm_compute in Hread. discriminate.
  - destruct H as (certBytes & block & err & Hread & _). vm_compute in Hread. discriminate.
Qed.

(** A run through [DeviceIDFromCert_first_block_only]: the file
    key-then-cert.pem holds a private key block followed by the certificate
    of dev-1, and the PEM-decode error is returned; dev-1.pem and
    dev-1-chain.pem differ after their common first block and give the same
    identifier. *)
Lemma DeviceIDFromCert_first_block_only_witness :
  (ioutil_ReadFile (Platform := Sim.platform) "key-then-cert.pem"
   = Ok (list_byte_of_string (Sim.keyDev1 ++ Sim.certDev1))
   /\ DeviceIDFromCert (P := Sim.platform) "key-then-cert.pem"
      = ("", Some (errorString "iothub: failed to decode PEM certificate")))
  /\ (ioutil_ReadFile (Platform := Sim.platform) "dev-1.pem"
      <> ioutil_ReadFile (Platform := Sim.platform) "dev-1-chain.pem"
      /\ DeviceIDFromCert (P := Sim.platform) "dev-1.pem"
         = DeviceIDFromCert (P := Sim.platform) "dev-1-chain.pem").
Proof.
  destruct (@DeviceIDFromCert_first_block_only Sim.platform) as (Hfirst & Hsame).
  split; split.
  - vm_compute; reflexivity.
  - refine (Hfirst "key-then-cert.pem" (list_byte_of_string (Sim.keyDev1 ++ Sim.certDev1)) _ _).
    + vm_compute; reflexivity.
    + intros block Hblock. vm_compute in Hblock.
      injection Hblock as <-. discriminate.
  - vm_compute. discriminate.
  - refine (Hsame "dev-1.pem" "dev-1-chain.pem"
              (list_byte_of_string Sim.certDev1)
              (list_byte_of_string (Sim.certDev1 ++ Sim.certRoot)) _ _ _);
      vm_compute; reflexivity.
Defined.

(** Runs of NewClient through [NewClient_config_errors]: a stream that holds
    a private key and no certificate, an empty stream, and a Device whose key
    file holds the key of another device. *)
Lemma NewClient_config_errors_witness :
  runState (NewClient (P := Sim.platform) Sim.noRoots [Sim.connectTimeout 90]) Sim.dev1
  = ((None, Some (errorString "iothub: no certs were parsed from given CA certs")), Sim.dev1)
  /\ runState (NewClient (P := Sim.platform) Sim.emptyReader [Sim.connectTimeout 90]) Sim.dev1
     = ((None, Some (errorString "iothub: no certs were parsed from given CA certs")),
        Sim.dev1)
  /\ runState (NewClient (P := Sim.platform) Sim.roots [Sim.connectTimeout 90])
              Sim.dev1WrongKey
     = ((None,
         Some (wrapError
                 "iothub: failed to load x509 key pair: tls: private key does not match public key"
                 (foreignError "tls: private key does not match public key" false))),
        Sim.dev1WrongKey).
Proof.
  split; [|split].
  - destruct (@NewClient_config_errors Sim.platform Sim.dev1 Sim.noRoots
                [Sim.connectTimeout 90]) as (H & _).
    refine (H (list_byte_of_string Sim.keyDev1) _ _); vm_compute; reflexivity.
  - destruct (@NewClient_config_errors Sim.platform Sim.dev1 Sim.emptyReader
                [Sim.connectTimeout 90]) as (_ & H & _).
    refine (H _ _); vm_compute; reflexivity.
  - destruct (@NewClient_config_errors Sim.platform Sim.dev1WrongKey Sim.roots
                [Sim.connectTimeout 90]) as (_ & _ & H & _).
    refine (H (list_byte_of_string Sim.certRoot)
              (foreignError "tls: private key does not match public key" false) _ _ _);
      vm_compute; reflexivity.
Defined.

(** A run of NewClient through [NewClient_tls_config]: the client made for
    dev-1 without option functions carries that configuration. *)
Lemma NewClient_tls_config_witness :
  runState (NewClient (P := Sim.platform) Sim.roots []) Sim.dev1
  = ((Some (Sim.client
              {| Sim.Servers := ["tls://my-hub.azure-devices.net:8883"];
                 Sim.OptClientID := "dev-1";
                 Sim.OptUsername := "my-hub.azure-devices.net/dev-1";
                 Sim.TLSConfig := Some Sim.tlsConfig1;
                 Sim.ConnectTimeout := 30 |}),
      None), Sim.dev1).
Proof.
  destruct (@NewClient_tls_config Sim.platform Sim.dev1 Sim.roots []
              (list_byte_of_string Sim.certRoot) [Sim.rootCert] Sim.keyPair1)
    as (_ & _ & H); [vm_compute; reflexivity ..|].
  exact H.
Defined.

(** Runs of NewClient through [NewClient_options_in_order].  With the
    timeout set to 90 before the bound of 60 is checked, the check fails and
    its error is returned, whether or not an option function follows it; with
    the bound checked first, all three succeed and the client has the timeout
    and the user name the later ones set. *)
Lemma NewClient_options_in_order_witness :
  runState (NewClient (P := Sim.platform) Sim.roots
              [Sim.connectTimeout 90; Sim.maxTimeout 60; Sim.username "other"]) Sim.dev1
  = ((None, Some (errorString "timeout too long")), Sim.dev1)
  /\ runState (NewClient (P := Sim.platform) Sim.roots
                 [Sim.connectTimeout 90; Sim.maxTimeout 60]) Sim.dev1
     = ((None, Some (errorString "timeout too long")), Sim.dev1)
  /\ runState (NewClient (P := Sim.platform) Sim.roots
                 [Sim.maxTimeout 60; Sim.connectTimeout 90; Sim.username "other"]) Sim.dev1
     = ((Some (Sim.client
                 {| Sim.Servers := ["tls://my-hub.azure-devices.net:8883"];
                    Sim.OptClientID := "dev-1";
                    Sim.OptUsername := "other";
                    Sim.TLSConfig := Some Sim.tlsConfig1;
                    Sim.ConnectTimeout := 90 |}),
         None), Sim.dev1).
Proof.
  destruct (@NewClient_options_in_order Sim.platform Sim.dev1 Sim.roots
              (list_byte_of_string Sim.certRoot) [Sim.rootCert] Sim.keyPair1)
    as (Hok & Hfail & _); [vm_compute; reflexivity ..|].
  split; [|split].
  - refine (Hfail [Sim.connectTimeout 90] (Sim.maxTimeout 60) [Sim.username "other"]
              _ Sim.dev1 _ (errorString "timeout too long") _ _).
    + eapply (@succeed_cons Sim.platform); [vm_compute; reflexivity | apply (@succeed_nil Sim.platform)].
    + vm_compute; reflexivity.
  - refine (Hfail [Sim.connectTimeout 90] (Sim.maxTimeout 60) []
              _ Sim.dev1 _ (errorString "timeout too long") _ _).
    + eapply (@succeed_cons Sim.platform); [vm_compute; reflexivity | apply (@succeed_nil Sim.platform)].
    + vm_compute; reflexivity.
  - refine (Hok [Sim.maxTimeout 60; Sim.connectTimeout 90; Sim.username "other"]
              Sim.dev1 _ _).
    eapply (@succeed_cons Sim.platform); [vm_compute; reflexivity |].
    eapply (@succeed_cons Sim.platform); [vm_compute; reflexivity |].
    eapply (@succeed_cons Sim.platform); [vm_compute; reflexivity |].
    apply (@succeed_nil Sim.platform).
Defined.

(** * Further properties *)

(** ** Strings *)

Lemma length_append (a b : string) :
  String.length (a ++ b) = String.length a + String.length b.
Proof. induction a as [|x a IH]; simpl; [reflexivity | now rewrite IH]. Qed.

Lemma append_cancel_l (s a b : string) : s ++ a = s ++ b -> a = b.
Proof.
  induction s as [|x s IH]; simpl; intros H; [exact H|].
  injection H as H. now apply IH.
Qed.

Lemma append_cancel_r (s a b : string) : a ++ s = b ++ s -> a = b.
Proof.
  revert b. induction a as [|x a IH]; intros [|y b] H.
  - reflexivity.
  - apply (f_equal String.length) in H. simpl in H. rewrite length_append in H. lia.
  - apply (f_equal String.length) in H. simpl in H. rewrite length_append in H. lia.
  - simpl in H. injection H as Hx H. subst y. f_equal. now apply IH.
Qed.

Lemma hasChar_append (c : ascii) (a b : string) :
  hasChar c (a ++ b) = hasChar c a || hasChar c b.
Proof.
  induction a as [|x a IH]; simpl; [reflexivity|].
  now rewrite IH, orb_assoc.
Qed.

(** Two strings cut at the first occurrence of [c] in the same way. *)
Lemma first_occurrence (c : ascii) (a b x y : string) :
  hasChar c a = false ->
  hasChar c b = false ->
  a ++ String c x = b ++ String c y ->
  a = b /\ x = y.
Proof.
  revert b. induction a as [|u a IH]; intros [|v b] Ha Hb H; simpl in *.
  - injection H as H. now split.
  - injection H as Hv _. subst v. now rewrite Ascii.eqb_refl in Hb.
  - injection H as Hu _. subst u. now rewrite Ascii.eqb_refl in Ha.
  - injection H as Hu H. subst v.
    apply orb_false_elim in Ha as [_ Ha]. apply orb_false_elim in Hb as [_ Hb].
    destruct (IH b Ha Hb H) as [-> ->]. now split.
Qed.

Lemma lastChar_append (a : string) (c : ascii) (s : string) :
  lastChar (a ++ String c s) = lastChar (String c s).
Proof.
  induction a as [|x a IH]; [reflexivity|].
  change (lastChar (String x (a ++ String c s)) = lastChar (String c s)).
  destruct (a ++ String c s) as [|y r] eqn:E.
  - destruct a; discriminate E.
  - rewrite <- IH. reflexivity.
Qed.

(** What the methods of a Device return, in one place. *)
Lemma Username_eval (d : Device) :
  evalState Username d = HubName d ++ ".azure-devices.net/" ++ DeviceID d.
Proof.
  unfold evalState, Username. cbn -[fmt.Sprintf]. apply Sprintf_username.
Qed.

Lemma Broker_eval (d : Device) :
  evalState Broker d = {| Host := HubName d ++ ".azure-devices.net"; Port := 8883 |}.
Proof.
  unfold evalState, Broker. cbn -[fmt.Sprintf]. now rewrite Sprintf_host.
Qed.

Lemma CommandTopic_eval (d : Device) :
  evalState CommandTopic d = "/devices/" ++ DeviceID d ++ "/messages/devicebound/#".
Proof. reflexivity. Qed.

Lemma TelemetryTopic_eval (d : Device) :
  evalState TelemetryTopic d = "/devices/" ++ DeviceID d ++ "/messages/events".
Proof. reflexivity. Qed.

(** ** The broker descriptor and the derived identifiers *)

(** X1. For every broker descriptor, whatever its host and port, URL returns
    [tls://], the host, a colon and the port in decimal, String returns the
    same as URL, and both leave the descriptor as it was. *)
Theorem URL_String_format (host : string) (port : Z) :
  runState URL (mkMQTTBroker host port)
  = ("tls://" ++ host ++ ":" ++ fmt.itoa port, mkMQTTBroker host port)
  /\ runState String_ (mkMQTTBroker host port) = runState URL (mkMQTTBroker host port).
Proof.
  split; [|reflexivity].
  unfold URL. cbn -[fmt.Sprintf]. now rewrite Sprintf_url.
Qed.

(** X2. The user name of a Device is the host of its broker, a slash, and
    its client identifier. *)
Theorem Username_is_host_and_ClientID (d : Device) :
  evalState Username d
  = Host (evalState Broker d) ++ "/" ++ evalState ClientID d.
Proof.
  rewrite Username_eval, Broker_eval.
  change (evalState ClientID d) with (DeviceID d). simpl Host.
  now rewrite append_assoc.
Qed.

(** X3. Two Devices have the same telemetry topic exactly when they have the
    same device identifier, and likewise for the command topic: the hub name
    and the paths play no part, and different identifiers never collide. *)
Theorem topics_injective (d1 d2 : Device) :
  (evalState TelemetryTopic d1 = evalState TelemetryTopic d2 <-> DeviceID d1 = DeviceID d2)
  /\ (evalState CommandTopic d1 = evalState CommandTopic d2 <-> DeviceID d1 = DeviceID d2).
Proof.
  rewrite !TelemetryTopic_eval, !CommandTopic_eval.
  split; split; intros H; try (now rewrite H).
  - apply append_cancel_l in H. now apply append_cancel_r in H.
  - apply append_cancel_l in H. now apply append_cancel_r in H.
Qed.

(** X4. For hub names without a slash, the user name determines both the hub
    name and the device identifier: two Devices with the same user name have
    the same hub and the same identifier. *)
Theorem Username_injective (d1 d2 : Device) :
  hasChar "/" (HubName d1) = false ->
  hasChar "/" (HubName d2) = false ->
  evalState Username d1 = evalState Username d2 ->
  HubName d1 = HubName d2 /\ DeviceID d1 = DeviceID d2.
Proof.
  intros H1 H2 H. rewrite !Username_eval in H.
  change (HubName d1 ++ ".azure-devices.net" ++ String "/" (DeviceID d1)
          = HubName d2 ++ ".azure-devices.net" ++ String "/" (DeviceID d2)) in H.
  rewrite <- !append_assoc in H.
  apply (first_occurrence "/") in H.
  - destruct H as [Hhost Hid]. split; [|exact Hid].
    now apply append_cancel_r in Hhost.
  - rewrite hasChar_append, H1. reflexivity.
  - rewrite hasChar_append, H2. reflexivity.
Qed.

(** X5. Nothing in the user name is escaped, so a slash in the hub name makes
    it ambiguous: the Device with hub [h] and identifier
    [i.azure-devices.net/j] and the Device with hub [h.azure-devices.net/i]
    and identifier [j] have different hub names and the same user name. *)
Theorem Username_ambiguous (h i j c k : string) :
  let d1 := mkDevice h (i ++ ".azure-devices.net/" ++ j) c k in
  let d2 := mkDevice (h ++ ".azure-devices.net/" ++ i) j c k in
  HubName d1 <> HubName d2
  /\ evalState Username d1 = evalState Username d2.
Proof.
  intros d1 d2. split.
  - simpl. intros H. apply (f_equal String.length) in H.
    rewrite length_append in H. simpl in H. lia.
  - rewrite !Username_eval. simpl HubName. simpl DeviceID.
    now rewrite !append_assoc.
Qed.

(** X6. The command topic of a Device is never the telemetry topic of a
    Device, whatever the two identifiers are: the first ends in [#], the
    second does not. *)
Theorem CommandTopic_never_TelemetryTopic (d1 d2 : Device) :
  lastChar (evalState CommandTopic d1) = Some "#"%char
  /\ lastChar (evalState TelemetryTopic d2) = Some "s"%char
  /\ evalState CommandTopic d1 <> evalState TelemetryTopic d2.
Proof.
  assert (Hc : lastChar (evalState CommandTopic d1) = Some "#"%char).
  { rewrite CommandTopic_eval.
    change (lastChar (("/devices/" ++ DeviceID d1) ++ "/messages/devicebound/#")
            = Some "#"%char) .
    now rewrite lastChar_append. }
  assert (Ht : lastChar (evalState TelemetryTopic d2) = Some "s"%char).
  { rewrite TelemetryTopic_eval.
    change (lastChar (("/devices/" ++ DeviceID d2) ++ "/messages/events") = Some "s"%char).
    now rewrite lastChar_append. }
  repeat split; [exact Hc | exact Ht |].
  intros H. rewrite H, Ht in Hc. discriminate.
Qed.

(** X7. The telemetry topic holds a wildcard character ([#] or [+]) exactly
    when the device identifier does, and the command topic holds a [+]
    exactly when the identifier does: the package adds no wildcard of its own
    except the final [#] of the command topic. *)
Theorem topic_wildcards (d : Device) :
  hasChar "#" (evalState TelemetryTopic d) = hasChar "#" (DeviceID d)
  /\ hasChar "+" (evalState TelemetryTopic d) = hasChar "+" (DeviceID d)
  /\ hasChar "+" (evalState CommandTopic d) = hasChar "+" (DeviceID d)
  /\ exists stem, evalState CommandTopic d = stem ++ "#"
                  /\ hasChar "#" stem = hasChar "#" (DeviceID d).
Proof.
  assert (Hin : forall c tail, hasChar c ("/devices/" ++ DeviceID d ++ tail)
                               = hasChar c "/devices/" || hasChar c (DeviceID d)
                                 || hasChar c tail).
  { intros c tail.
    change ("/devices/" ++ DeviceID d ++ tail) with ("/devices/" ++ (DeviceID d ++ tail)).
    now rewrite !hasChar_append, orb_assoc. }
  rewrite TelemetryTopic_eval, CommandTopic_eval.
  split; [|split; [|split]].
  - rewrite Hin. simpl. now rewrite orb_false_r.
  - rewrite Hin. simpl. now rewrite orb_false_r.
  - rewrite Hin. simpl. now rewrite orb_false_r.
  - exists ("/devices/" ++ DeviceID d ++ "/messages/devicebound/"). split.
    + now rewrite !append_assoc.
    + rewrite Hin. simpl. now rewrite orb_false_r.
Qed.

(** Runs of [topics_injective] and [Username_injective]: the device dev-1
    under two hubs has one telemetry topic and one command topic, and dev-1
    with either key file has one user name. *)
Lemma topics_injective_witness :
  (evalState TelemetryTopic Sim.dev1 = evalState TelemetryTopic Sim.dev1Elsewhere
   /\ evalState CommandTopic Sim.dev1 = evalState CommandTopic Sim.dev1Elsewhere)
  /\ DeviceID Sim.dev1 = DeviceID Sim.dev1Elsewhere.
Proof.
  destruct (topics_injective Sim.dev1 Sim.dev1Elsewhere) as [[Ht1 Ht2] [_ Hc]].
  split; [split|].
  - apply Ht2. reflexivity.
  - apply Hc. reflexivity.
  - apply Ht1. reflexivity.
Defined.

Lemma Username_injective_witness :
  HubName Sim.dev1 = HubName Sim.dev1WrongKey
  /\ DeviceID Sim.dev1 = DeviceID Sim.dev1WrongKey.
Proof.
  apply (Username_injective Sim.dev1 Sim.dev1WrongKey); reflexivity.
Defined.

(** ** DeviceIDFromCert and NewClient, continued *)

Section Further.

Context {P : Platform}.

(** X8. Whenever DeviceIDFromCert returns an error, the identifier it
    returns with it is the empty string. *)
Theorem DeviceIDFromCert_error_empty (certPath : string) :
  snd (DeviceIDFromCert certPath) <> None ->
  fst (DeviceIDFromCert certPath) = "".
Proof.
  intros Herr.
  destruct (DeviceIDFromCert_cases certPath)
    as [H|[H|[H|[H|H]]]].
  - destruct H as (certBytes & block & cert & _ & _ & _ & _ & Hres).
    rewrite Hres in Herr. now contradiction Herr.
  - destruct H as (err & _ & _ & Hres). now rewrite Hres.
  - destruct H as (err & _ & _ & Hres). now rewrite Hres.
  - destruct H as (certBytes & _ & _ & Hres). now rewrite Hres.
  - destruct H as (certBytes & block & err & _ & _ & _ & _ & Hres). now rewrite Hres.
Qed.

(** X9. DeviceIDFromCert returns a nil error only when the file was read,
    pem.Decode found a first block of type CERTIFICATE and the payload of
    that block parsed; the identifier is then the subject common name of the
    parsed certificate. *)
Theorem DeviceIDFromCert_nil_error (certPath : string) :
  snd (DeviceIDFromCert certPath) = None ->
  exists certBytes block cert,
    ioutil_ReadFile certPath = Ok certBytes /\
    fst (pem_Decode certBytes) = Some block /\
    Type_ block = "CERTIFICATE" /\
    x509_ParseCertificate (Bytes block) = Ok cert /\
    fst (DeviceIDFromCert certPath) = CommonName (Subject cert).
Proof.
  intros Hnil.
  destruct (DeviceIDFromCert_cases certPath)
    as [H|[H|[H|[H|H]]]].
  - destruct H as (certBytes & block & cert & Hread & Hblock & Htype & Hparse & Hres).
    exists certBytes, block, cert. rewrite Hres. auto.
  - destruct H as (err & _ & _ & Hres). rewrite Hres in Hnil. discriminate.
  - destruct H as (err & _ & _ & Hres). rewrite Hres in Hnil. discriminate.
  - destruct H as (certBytes & _ & _ & Hres). rewrite Hres in Hnil. discriminate.
  - destruct H as (certBytes & block & err & _ & _ & _ & _ & Hres).
    rewrite Hres in Hnil. discriminate.
Qed.

Lemma Errorf_read_CA (err : error) :
  fmt.Errorf "iothub: failed to read CA certs: %v" [fmt.Err err]
  = errorString ("iothub: failed to read CA certs: " ++ Error err).
Proof. unfold fmt.Errorf. cbn. now rewrite append_empty_r. Qed.

Lemma NewClient_unread (d : Device) (caCerts : io_Reader) (options : list OptionFunc)
      (err : error) :
  ioutil_ReadAll caCerts = Fail err ->
  runState (NewClient caCerts options) d
  = ((None, Some (errorString ("iothub: failed to read CA certs: " ++ Error err))), d).
Proof.
  intros Hread. unfold NewClient. rewrite Hread.
  cbn -[fmt.Errorf]. now rewrite Errorf_read_CA.
Qed.

Lemma NewClient_ways (d : Device) (caCerts : io_Reader) (options : list OptionFunc) :
  NewClient_way d caCerts options (runState (NewClient caCerts options) d).
Proof.
  destruct (ioutil_ReadAll caCerts) as [pemCerts|err] eqn:Hread.
  - destruct (AppendCertsFromPEM pemCerts x509_NewCertPool) as [ok certpool] eqn:Hpool.
    assert (Hok := f_equal fst Hpool). simpl in Hok.
    destruct ok.
    + destruct (tls_LoadX509KeyPair (CertPath d) (PrivKeyPath d)) as [cert|err] eqn:Hload.
      * rewrite (NewClient_run d caCerts options Hread Hpool Hload).
        destruct (runState (applyOptions options) _) as [res [d' opts]] eqn:Hrun.
        exact (@way_options P d caCerts options pemCerts certpool cert res (d', opts)
                 Hread Hpool Hload Hrun).
      * erewrite NewClient_bad_key_pair by eassumption.
        eapply way_bad_key_pair; eassumption.
    + erewrite NewClient_no_roots by eassumption.
      eapply way_no_roots; eassumption.
  - erewrite NewClient_unread by eassumption.
    eapply way_unread; eassumption.
Qed.

(** The loop over the option functions, continued. *)
Lemma applyOptions_nil_error (options : list OptionFunc) (st st' : Device * mqtt_ClientOptions) :
  runState (applyOptions options) st = (None, st') ->
  succeed options st st'.
Proof.
  revert st. induction options as [|option rest IH]; intros st Hrun.
  - cbn in Hrun. injection Hrun as <-. constructor.
  - rewrite applyOptions_cons in Hrun.
    destruct (runState option st) as [[err|] st1] eqn:Hone; [discriminate|].
    econstructor; [exact Hone | now apply IH].
Qed.

Lemma applyOptions_keeps_Device (options : list OptionFunc) :
  (forall option st, In option options -> fst (snd (runState option st)) = fst st) ->
  forall st, fst (snd (runState (applyOptions options) st)) = fst st.
Proof.
  induction options as [|option rest IH]; intros Hkeep st.
  - reflexivity.
  - rewrite applyOptions_cons.
    assert (Hone := Hkeep option st (or_introl eq_refl)).
    destruct (runState option st) as [[err|] st1]; [exact Hone|].
    rewrite IH; [exact Hone|].
    intros o s Hin. apply Hkeep. now right.
Qed.



(** X10. When reading the stream of CA certificates fails, NewClient returns
    a nil client and the error [iothub: failed to read CA certs:] followed by
    the text of the read error, which it does not wrap; this holds whatever
    the Device and the option functions are, and the Device is unchanged. *)
Theorem NewClient_read_failure (d : Device) (caCerts : io_Reader)
        (options : list OptionFunc) (err : error) :
  ioutil_ReadAll caCerts = Fail err ->
  runState (NewClient caCerts options) d
  = ((None, Some (errorString ("iothub: failed to read CA certs: " ++ Error err))), d).
Proof.
  intros Hread. now apply NewClient_unread.
Qed.

(** X11. NewClient returns either a client and a nil error, or a nil client
    and an error: never both, never neither. *)
Theorem NewClient_all_or_nothing (d : Device) (caCerts : io_Reader)
        (options : list OptionFunc) :
  (exists client, evalState (NewClient caCerts options) d = (Some client, None))
  \/ (exists err, evalState (NewClient caCerts options) d = (None, Some err)).
Proof.
  unfold evalState.
  destruct (NewClient_ways d caCerts options) as [err _|pemCerts _ _|pemCerts err _ _ _
                                                  |pemCerts certpool cert res st _ _ _ _].
  - right. now eexists.
  - right. now eexists.
  - right. now eexists.
  - destruct res as [err|]; [right | left]; now eexists.
Qed.

(** X12. NewClient returns a client only if the stream was read, at least
    one root certificate parsed, the key pair loaded and every option
    function returned nil; the client is then made from the options the last
    option function left, the error is nil, and the Device is as the option
    functions left it. *)
Theorem NewClient_client_only_if (d d' : Device) (caCerts : io_Reader)
        (options : list OptionFunc) (client : mqtt_Client) (err : option error) :
  runState (NewClient caCerts options) d = ((Some client, err), d') ->
  exists pemCerts certpool cert opts',
    ioutil_ReadAll caCerts = Ok pemCerts /\
    AppendCertsFromPEM pemCerts x509_NewCertPool = (true, certpool) /\
    tls_LoadX509KeyPair (CertPath d) (PrivKeyPath d) = Ok cert /\
    succeed options
            (d, defaults d {| RootCAs := Some certpool;
                              ClientAuth := RequireAndVerifyClientCert;
                              Certificates := [cert];
                              MinVersion := tls_VersionTLS12 |})
            (d', opts') /\
    client = mqtt_NewClient opts' /\
    err = None.
Proof.
  intros Hres.
  destruct (NewClient_ways d caCerts options)
    as [e _|pemCerts _ _|pemCerts e _ _ _|pemCerts certpool cert res st Hread Hpool Hload Hrun];
    try discriminate Hres.
  destruct res as [e|]; [discriminate Hres|].
  destruct st as [d1 opts1]. simpl in Hres.
  injection Hres as Hclient Herr Hd. subst.
  exists pemCerts, certpool, cert, opts1.
  repeat split; try assumption.
  now apply applyOptions_nil_error.
Qed.

(** X13. NewClient itself never changes the Device: if no option function
    changes it, the Device after NewClient is the Device before, whatever
    NewClient returns. *)
Theorem NewClient_keeps_Device (d : Device) (caCerts : io_Reader)
        (options : list OptionFunc) :
  (forall option st, In option options -> fst (snd (runState option st)) = fst st) ->
  execState (NewClient caCerts options) d = d.
Proof.
  intros Hkeep. unfold execState.
  destruct (NewClient_ways d caCerts options)
    as [e _|pemCerts _ _|pemCerts e _ _ _|pemCerts certpool cert res st _ _ _ Hrun];
    try reflexivity.
  assert (Hloop := applyOptions_keeps_Device options Hkeep
                      (d, defaults d {| RootCAs := Some certpool;
                                        ClientAuth := RequireAndVerifyClientCert;
                                        Certificates := [cert];
                                        MinVersion := tls_VersionTLS12 |})).
  rewrite Hrun in Hloop. exact Hloop.
Qed.


(** X15. With no option functions, when the root pool is built and the key
    pair loads, the client is made from the options NewClient sets by
    default, in this order on fresh options: the broker
    [tls://h.azure-devices.net:8883], the device identifier as client
    identifier, [h.azure-devices.net/i] as user name, and the TLS
    configuration. *)
Theorem NewClient_default_options (d : Device) (caCerts : io_Reader)
        (pemCerts : bytes) (certpool : x509_CertPool) (cert : tls_Certificate) :
  ioutil_ReadAll caCerts = Ok pemCerts ->
  AppendCertsFromPEM pemCerts x509_NewCertPool = (true, certpool) ->
  tls_LoadX509KeyPair (CertPath d) (PrivKeyPath d) = Ok cert ->
  runState (NewClient caCerts []) d
  = ((Some (mqtt_NewClient
              (SetTLSConfig {| RootCAs := Some certpool;
                               ClientAuth := RequireAndVerifyClientCert;
                               Certificates := [cert];
                               MinVersion := tls_VersionTLS12 |}
                 (SetUsername (HubName d ++ ".azure-devices.net/" ++ DeviceID d)
                    (SetClientID (DeviceID d)
                       (AddBroker ("tls://" ++ HubName d ++ ".azure-devices.net:8883")
                          mqtt_NewClientOptions))))),
      None), d).
Proof.
  intros Hread Hpool Hload.
  rewrite (NewClient_run d caCerts [] Hread Hpool Hload).
  cbn [applyOptions]. unfold defaults.
  rewrite Username_eval, Broker_eval.
  change (evalState ClientID d) with (DeviceID d).
  unfold evalState at 1, URL. cbn -[fmt.Sprintf append].
  rewrite Sprintf_url. change (fmt.itoa 8883) with "8883".
  rewrite append_assoc. reflexivity.
Qed.

End Further.

(** ** Further runs on the platform [Sim] *)

(** A run of [DeviceIDFromCert_error_empty]: a path with no file. *)
Lemma DeviceIDFromCert_error_empty_witness :
  snd (DeviceIDFromCert (P := Sim.platform) "missing.pem") <> None
  /\ fst (DeviceIDFromCert (P := Sim.platform) "missing.pem") = "".
Proof.
  assert (H : snd (DeviceIDFromCert (P := Sim.platform) "missing.pem") <> None)
    by (vm_compute; discriminate).
  split; [exact H|].
  exact (@DeviceIDFromCert_error_empty Sim.platform "missing.pem" H).
Defined.

(** A run of [DeviceIDFromCert_nil_error]: the certificate of dev-1. *)
Lemma DeviceIDFromCert_nil_error_witness :
  exists certBytes block cert,
    Sim.readFile "dev-1.pem" = Ok certBytes /\
    fst (Sim.decode certBytes) = Some block /\
    Type_ block = "CERTIFICATE" /\
    Sim.parse (Bytes block) = Ok cert /\
    fst (DeviceIDFromCert (P := Sim.platform) "dev-1.pem") = CommonName (Subject cert).
Proof.
  apply (@DeviceIDFromCert_nil_error Sim.platform "dev-1.pem").
  vm_compute. reflexivity.
Defined.

(** A run of [NewClient_read_failure]: a reader that breaks off. *)
Lemma NewClient_read_failure_witness :
  runState (NewClient (P := Sim.platform) Sim.brokenReader [Sim.connectTimeout 90])
           Sim.dev1WrongKey
  = ((None, Some (errorString "iothub: failed to read CA certs: unexpected EOF")),
     Sim.dev1WrongKey).
Proof.
  apply (@NewClient_read_failure Sim.platform Sim.dev1WrongKey Sim.brokenReader
           [Sim.connectTimeout 90] (foreignError "unexpected EOF" false)).
  reflexivity.
Defined.

(** A run of [NewClient_client_only_if]: the client made for dev-1 with the
    timeout bound checked and the timeout then set. *)
Lemma NewClient_client_only_if_witness :
  exists pemCerts certpool cert opts',
    Sim.roots = Ok pemCerts /\
    Sim.appendCerts (S (List.length pemCerts)) pemCerts [] = (true, certpool) /\
    Sim.loadKeyPair "dev-1.pem" "dev-1.key" = Ok cert /\
    succeed (P := Sim.platform) [Sim.maxTimeout 60; Sim.connectTimeout 90]
            (Sim.dev1,
             defaults (P := Sim.platform) Sim.dev1
               {| RootCAs := Some certpool;
                  ClientAuth := RequireAndVerifyClientCert;
                  Certificates := [cert];
                  MinVersion := tls_VersionTLS12 |})
            (Sim.dev1, opts') /\
    Sim.client
      {| Sim.Servers := ["tls://my-hub.azure-devices.net:8883"];
         Sim.OptClientID := "dev-1";
         Sim.OptUsername := "my-hub.azure-devices.net/dev-1";
         Sim.TLSConfig := Some Sim.tlsConfig1;
         Sim.ConnectTimeout := 90 |} = Sim.client opts' /\
    @None error = None.
Proof.
  apply (@NewClient_client_only_if Sim.platform Sim.dev1 Sim.dev1 Sim.roots
           [Sim.maxTimeout 60; Sim.connectTimeout 90]).
  vm_compute. reflexivity.
Defined.

(** A run of [NewClient_keeps_Device]: two option functions that only touch
    the options. *)
Lemma NewClient_keeps_Device_witness :
  execState (NewClient (P := Sim.platform) Sim.roots
               [Sim.connectTimeout 90; Sim.username "other"]) Sim.dev1
  = Sim.dev1.
Proof.
  apply (@NewClient_keeps_Device Sim.platform Sim.dev1 Sim.roots
           [Sim.connectTimeout 90; Sim.username "other"]).
  intros option st [<-|[<-|[]]]; reflexivity.
Defined.


(** A run of [NewClient_default_options]: the options of the client for
    dev-1. *)
Lemma NewClient_default_options_witness :
  runState (NewClient (P := Sim.platform) Sim.roots []) Sim.dev1
  = ((Some (Sim.client
              {| Sim.Servers := ["tls://my-hub.azure-devices.net:8883"];
                 Sim.OptClientID := "dev-1";
                 Sim.OptUsername := "my-hub.azure-devices.net/dev-1";
                 Sim.TLSConfig := Some Sim.tlsConfig1;
                 Sim.ConnectTimeout := 30 |}),
      None), Sim.dev1).
Proof.
  apply (@NewClient_default_options Sim.platform Sim.dev1 Sim.roots
           (list_byte_of_string Sim.certRoot) [Sim.rootCert] Sim.keyPair1);
    vm_compute; reflexivity.
Defined.
